(** * Errodator: a shallow embedding of [Errod], [basicInternalError] and
      [Errodator] (index.js), with the properties of its dispatch logic.

    JavaScript values are modelled as a closed inductive type.  Objects carry
    their class (the prototype chain the library can observe through
    [instanceof] and through the inherited [message]/[name] defaults) and a
    finite map of own data properties, each with its enumerable attribute.
    Accessor properties, symbols and the engine specific [stack] property
    are outside the model: every own property is a writable data property
    under a string key.  The one accessor that [Object.assign] can reach on
    a fresh instance, the [__proto__] setter of [Object.prototype], is
    modelled where it is written to. *)

From stdpp Require Import gmap strings list fin_maps pretty.

Open Scope string_scope.
Open Scope list_scope.

Set Warnings "-register-all".

(** ** Values *)

(** The functions a program can hold: the library's own default internal
    handler, and the functions written by the user, told apart by a number. *)
Inductive FunId :=
  | BasicInternalError
  | UserFun (n : nat).

(** The prototype of an object.  First the classes whose instances the
    library creates or inspects: [Errod] extends [Error]; [TypeError] is what
    the engine throws on a property read from [null] or [undefined] and on a
    call of something not callable.  Then what the [__proto__] setter can
    leave behind: no prototype at all, or an object given as a value. *)
Inductive JsClass :=
  | ObjectClass
  | ErrorClass
  | TypeErrorClass
  | ErrodClass
  | NullProto
  | InstanceProto (proto : JsVal)

with JsVal :=
  | VUndefined
  | VNull
  | VBool (b : bool)
  | VNum (z : Z)
  | VNaN
  | VStr (s : string)
  | VFun (f : FunId)
  | VObj (cls : JsClass) (props : gmap string (JsVal * bool)).

(** An own property: its value and whether it is enumerable. *)
Abbreviation Slot := (JsVal * bool)%type.
Abbreviation Props := (gmap string Slot).

Definition slot_value (p : Slot) : JsVal := fst p.
Definition slot_enumerable (p : Slot) : bool := snd p.

(** [typeof v] *)
Definition typeof (v : JsVal) : string :=
  match v with
  | VUndefined => "undefined"
  | VNull => "object"
  | VBool _ => "boolean"
  | VNum _ | VNaN => "number"
  | VStr _ => "string"
  | VFun _ => "function"
  | VObj _ _ => "object"
  end.

(** ToBoolean *)
Definition truthy (v : JsVal) : bool :=
  match v with
  | VUndefined | VNull | VNaN => false
  | VBool b => b
  | VNum z => negb (Z.eqb z 0)
  | VStr s => negb (String.eqb s "")
  | VFun _ | VObj _ _ => true
  end.

(** [null] and [undefined] have no properties: reading one throws. *)
Definition nullish (v : JsVal) : bool :=
  match v with
  | VUndefined | VNull => true
  | _ => false
  end.

(** Whether [Errod.prototype] is on the chain that starts at a prototype. *)
Fixpoint class_is_Errod (cls : JsClass) : bool :=
  match cls with
  | ErrodClass => true
  | InstanceProto (VObj cls' _) => class_is_Errod cls'
  | _ => false
  end.

(** [v instanceof Errod]: [Errod.prototype] is on the prototype chain of the
    object [v]. *)
Definition instanceof_Errod (v : JsVal) : bool :=
  match v with
  | VObj cls _ => class_is_Errod cls
  | _ => false
  end.

(** ** Properties *)

(** The characters of a string are own enumerable properties of its wrapper
    object, keyed by their index; [length] is own and not enumerable. *)
Fixpoint string_index_props (i : nat) (s : string) : Props :=
  match s with
  | EmptyString => ∅
  | String c rest =>
      <[pretty i := (VStr (String c EmptyString), true)]>
        (string_index_props (S i) rest)
  end.

Definition own_props (v : JsVal) : Props :=
  match v with
  | VObj _ props => props
  | VStr s =>
      <["length" := (VNum (Z.of_nat (String.length s)), false)]>
        (string_index_props 0 s)
  | _ => ∅
  end.

(** What the prototype chain of a class supplies for a key that is not an own
    property.  [Error.prototype] holds [message = ''] and [name = 'Error'],
    [TypeError.prototype] holds its own [name]; class [Errod] declares nothing
    but its constructor, so its instances inherit from [Error.prototype].
    An object that serves as prototype supplies its own properties, then
    those of its own chain.  Methods of the prototypes and reads of
    [__proto__] are not modelled. *)
Fixpoint proto_lookup (cls : JsClass) (k : string) : JsVal :=
  match cls with
  | ObjectClass | NullProto => VUndefined
  | ErrorClass | ErrodClass =>
      if String.eqb k "message" then VStr ""
      else if String.eqb k "name" then VStr "Error"
      else VUndefined
  | TypeErrorClass =>
      if String.eqb k "message" then VStr ""
      else if String.eqb k "name" then VStr "TypeError"
      else VUndefined
  | InstanceProto proto =>
      match own_props proto !! k with
      | Some p => slot_value p
      | None =>
          match proto with
          | VObj cls' _ => proto_lookup cls' k
          | _ => VUndefined
          end
      end
  end.

Definition class_of (v : JsVal) : JsClass :=
  match v with
  | VObj cls _ => cls
  | _ => ObjectClass
  end.

(** [v.k] for a [v] that is neither [null] nor [undefined].  Functions are
    modelled without properties of their own. *)
Definition lookup_prop (v : JsVal) (k : string) : JsVal :=
  match own_props v !! k with
  | Some p => slot_value p
  | None => proto_lookup (class_of v) k
  end.

(** [o.k = x] on an ordinary object, for a key that no accessor on the
    prototype chain intercepts: an existing own property keeps its
    attributes, a new one is created enumerable. *)
Definition put (k : string) (x : JsVal) (props : Props) : Props :=
  match props !! k with
  | Some p => <[k := (x, slot_enumerable p)]> props
  | None => <[k := (x, true)]> props
  end.

(** The value a metadata source supplies for a key: that of its own
    enumerable property of that name, if it has one. *)
Definition supplies (src : JsVal) (k : string) : option JsVal :=
  match own_props src !! k with
  | Some (x, true) => Some x
  | _ => None
  end.

(** The keys of a source other than [__proto__], assigned to the own
    properties of the target, pointwise: each own enumerable property of the
    source is written with [put].  [null], [undefined], numbers, booleans and
    functions have none. *)
Definition assign_fields (target : Props) (src : JsVal) : Props :=
  merge (fun t s =>
           match s with
           | Some (x, true) =>
               Some (x, match t with Some p => slot_enumerable p | None => true end)
           | _ => t
           end) target (delete "__proto__" (own_props src)).

(** What an assignment to the key [__proto__] meets first on a prototype
    chain: the accessor of [Object.prototype], at the end of the chain of
    every built-in class and of every function; a data property of that name
    on an object that serves as prototype; or nothing, where the chain ends
    in [null] before it reaches [Object.prototype]. *)
Inductive ProtoKey :=
  | SetterFound
  | DataFound
  | NotFound.

Fixpoint find_proto_key (cls : JsClass) : ProtoKey :=
  match cls with
  | ObjectClass | ErrorClass | TypeErrorClass | ErrodClass => SetterFound
  | NullProto => NotFound
  | InstanceProto proto =>
      match own_props proto !! "__proto__" with
      | Some _ => DataFound
      | None =>
          match proto with
          | VObj cls' _ => find_proto_key cls'
          | _ => SetterFound
          end
      end
  end.

(** An object under construction: its prototype and its own properties. *)
Abbreviation Obj := (JsClass * Props)%type.

(** [o.__proto__ = x].  An own property of that name is written like any
    other.  Otherwise the chain decides: the setter of [Object.prototype]
    replaces the prototype when [x] is an object, a function or [null], and
    does nothing for any other value; where a data property or nothing is
    found, an own property is created. *)
Definition set_proto_key (x : JsVal) (o : Obj) : Obj :=
  match snd o !! "__proto__" with
  | Some _ => (fst o, put "__proto__" x (snd o))
  | None =>
      match find_proto_key (fst o) with
      | SetterFound =>
          (match x with
           | VNull => NullProto
           | VObj _ _ | VFun _ => InstanceProto x
           | _ => fst o
           end, snd o)
      | DataFound | NotFound => (fst o, put "__proto__" x (snd o))
      end
  end.

(** [Object.assign(target, src)]: every own enumerable property of the source
    is assigned to the target.  The assignment of [__proto__] and those of
    the other keys do not bear on each other, so the order of the keys within
    one source is immaterial. *)
Definition assign_one (target : Obj) (src : JsVal) : Obj :=
  let target := (fst target, assign_fields (snd target) src) in
  match supplies src "__proto__" with
  | Some x => set_proto_key x target
  | None => target
  end.

(** [Object.assign(target, ...sources)]: sources are applied left to right. *)
Definition Object_assign (target : Obj) (sources : list JsVal) : Obj :=
  foldl assign_one target sources.

(** ** Built-in errors *)

(** [new Error(message)] and [new TypeError(message)]: [message] is an own
    property that is not enumerable. *)
Definition Error_new (message : string) : JsVal :=
  VObj ErrorClass {[ "message" := (VStr message, false) ]}.

Definition TypeError_new (message : string) : JsVal :=
  VObj TypeErrorClass {[ "message" := (VStr message, false) ]}.

(** ** class Errod extends Error *)

(** [new Errod(message, ...args)] for a string [message], as documented. *)
Definition Errod_new (message : string) (args : list JsVal) : JsVal :=
  (* super(message) *)
  let this : Obj := (ErrodClass, {[ "message" := (VStr message, false) ]}) in
  (* this.name = 'Errod' *)
  let this : Obj := (fst this, put "name" (VStr "Errod") (snd this)) in
  (* Object.assign(this, ...args) *)
  let this := Object_assign this args in
  VObj (fst this) (snd this).


(** The value of an own property, enumerable or not. *)
Definition own_value (v : JsVal) (k : string) : option JsVal :=
  slot_value <$> own_props v !! k.

(** The value the last of the sources supplying a key supplies for it. *)
Fixpoint last_supplied (k : string) (sources : list JsVal) : option JsVal :=
  match sources with
  | [] => None
  | src :: rest =>
      match last_supplied k rest with
      | Some x => Some x
      | None => supplies src k
      end
  end.

(** ** Effects *)

(** The three places where [validate] calls a handler. *)
Inductive Site :=
  | Primary    (* this.func *)
  | Fallback   (* this.logger *)
  | Internal.  (* this.onInternalError *)

(** What the library does to the outside, in order: the handler calls made by
    [validate], and the lines it writes to the console. *)
Inductive Event :=
  | Invoke (site : Site) (callee : JsVal) (args : list JsVal)
  | ConsoleError (args : list JsVal)
  | ConsoleLog (args : list JsVal).

(** How the awaited call of a user function ends: it returns (a value or a
    promise that fulfils), throws, returns a promise that rejects, or never
    settles. *)
Inductive Settle :=
  | Completes
  | Throws (v : JsVal)
  | Rejects (v : JsVal)
  | Hangs.

(** The completion of a piece of code. *)
Inductive Result (A : Type) :=
  | Ok (a : A)
  | Throw (v : JsVal)
  | Pending.
Arguments Ok {A} a.
Arguments Throw {A} v.
Arguments Pending {A}.

(** How [await] sees the end of a call. *)
Definition await (o : Settle) : Result unit :=
  match o with
  | Completes => Ok tt
  | Throws v | Rejects v => Throw v
  | Hangs => Pending
  end.

(** The escape sequences that colour the diagnostics, and the labels of the
    diagnostic lines. *)
Definition red : string := String (Ascii.ascii_of_nat 27) "[31m".
Definition reset : string := String (Ascii.ascii_of_nat 27) "[0m".

Definition label_internal : string := red +:+ "Errodator >> Internal error:".
Definition label_cause : string := red +:+ "Errodator >> Caused by:".
Definition label_recursive : string := red +:+ "Errodator >> Recursive internal error detected:".
Definition label_secondary : string := red +:+ "Errodator >> Error in onInternalError:".

(** The TypeError of a property read from [null] or [undefined]. *)
Definition cannot_read (v : JsVal) (k : string) : JsVal :=
  TypeError_new ("Cannot read properties of " +:+
                 (match v with VNull => "null" | _ => "undefined" end) +:+
                 " (reading '" +:+ k +:+ "')").

(** The lines [basicInternalError] writes for an error with fields: one with
    its message, and one with its cause when that is truthy. *)
Definition basicInternalError_lines (error : JsVal) : list Event :=
  ConsoleError [VStr label_internal; lookup_prop error "message"; VStr reset]
  :: (if truthy (lookup_prop error "cause")
      then [ConsoleError [VStr label_cause; lookup_prop error "cause"; VStr reset]]
      else []).

(** The lines the inner [catch] block of [validate] writes for a value with
    fields. *)
Definition inner_catch_lines (recursiveError : JsVal) : list Event :=
  ConsoleError [VStr label_secondary; lookup_prop recursiveError "message"; VStr reset]
  :: (if truthy (lookup_prop recursiveError "cause")
      then [ConsoleError [VStr label_cause; lookup_prop recursiveError "cause"; VStr reset]]
      else []).

Definition site_field (site : Site) : string :=
  match site with
  | Primary => "this.func"
  | Fallback => "this.logger"
  | Internal => "this.onInternalError"
  end.

Record Errodator := mkErrodator {
  func : JsVal;
  logger : JsVal;
  onInternalError : JsVal
}.

(** A default parameter value applies when the argument is [undefined],
    omitted or passed. *)
Definition default_param (arg dflt : JsVal) : JsVal :=
  match arg with
  | VUndefined => dflt
  | _ => arg
  end.

Section Program.

(** The state the user's functions act on, and their behaviour. *)
Variable W : Type.
Variable user_fun : nat → list JsVal → W → Settle * W.

(** The machine state: the local variable of the running [validate] call, the
    user's world, and the events so far (oldest first). *)
Record State := mkState {
  isHandlingInternalError : bool;
  host : W;
  trace : list Event
}.

Definition M (A : Type) : Type := State → Result A * State.

Definition ret {A} (a : A) : M A := fun s => (Ok a, s).

Definition bind {A B} (m : M A) (k : A → M B) : M B :=
  fun s =>
    match m s with
    | (Ok a, s') => k a s'
    | (Throw v, s') => (Throw v, s')
    | (Pending, s') => (Pending, s')
    end.

Definition throw {A} (v : JsVal) : M A := fun s => (Throw v, s).

(** [try { body } catch (x) { handler x }] *)
Definition try_catch {A} (body : M A) (handler : JsVal → M A) : M A :=
  fun s =>
    match body s with
    | (Throw v, s') => handler v s'
    | r => r
    end.

#[export] Instance M_ret : MRet M := @ret.
#[export] Instance M_bind : MBind M := fun A B k m => bind m k.

(** The state with more events at the end of its trace. *)
Definition logged (s : State) (evs : list Event) : State :=
  mkState (isHandlingInternalError s) (host s) (trace s ++ evs).

Definition emit (e : Event) : M unit := fun s => (Ok tt, logged s [e]).

Definition console_error (args : list JsVal) : M unit := emit (ConsoleError args).
Definition console_log (args : list JsVal) : M unit := emit (ConsoleLog args).

Definition read_flag : M bool := fun s => (Ok (isHandlingInternalError s), s).

Definition write_flag (b : bool) : M unit :=
  fun s => (Ok tt, mkState b (host s) (trace s)).

(** [v.k]: a TypeError on [null] and [undefined]. *)
Definition get_prop (v : JsVal) (k : string) : M JsVal :=
  if nullish v then throw (cannot_read v k) else mret (lookup_prop v k).

(** <<
const basicInternalError = (error) => {
    console.error('\x1b[31mErrodator >> Internal error:', error.message, '\x1b[0m');
    if (error.cause) {
        console.error('\x1b[31mErrodator >> Caused by:', error.cause, '\x1b[0m');
    }
}
>> *)
Definition basicInternalError (error : JsVal) : M unit :=
  message ← get_prop error "message";
  console_error [VStr label_internal; message; VStr reset];;
  cause ← get_prop error "cause";
  if truthy cause then
    cause ← get_prop error "cause";
    console_error [VStr label_cause; cause; VStr reset]
  else mret tt.

(** The body of a function value applied to arguments and awaited.  A missing
    argument is [undefined]. *)
Definition apply_fun (f : FunId) (args : list JsVal) : M unit :=
  match f with
  | BasicInternalError => basicInternalError (nth 0 args VUndefined)
  | UserFun n =>
      fun s =>
        let '(o, w) := user_fun n args (host s) in
        (await o, mkState (isHandlingInternalError s) w (trace s))
  end.

(** [await callee(...args)] at a call site of [validate]: the call is
    recorded; calling a value that is not a function throws a TypeError and
    calls nothing. *)
Definition call (site : Site) (callee : JsVal) (args : list JsVal) : M unit :=
  match callee with
  | VFun f => emit (Invoke site callee args);; apply_fun f args
  | _ => throw (TypeError_new (site_field site +:+ " is not a function"))
  end.

(** ** class Errodator *)

(** [constructor(func, logger, onInternalError = basicInternalError)] *)
Definition Errodator_new (arg_func arg_logger arg_onInternalError : JsVal) : M Errodator :=
  let this := mkErrodator arg_func arg_logger
                (default_param arg_onInternalError (VFun BasicInternalError)) in
  if negb (String.eqb (typeof this.(func)) "function") then
    throw (Error_new "Errodator: `func` argument must be a function")
  else if negb (String.eqb (typeof this.(logger)) "function") then
    throw (Error_new "Errodator: `logger` argument must be a function")
  else if negb (String.eqb (typeof this.(onInternalError)) "function") then
    console_log [VStr (typeof this.(onInternalError))];;
    throw (Error_new "Errodator: `onInternalError` argument must be a function")
  else mret this.

(** The [try] block of [validate]. *)
Definition validate_try (this : Errodator) (error : JsVal) (args : list JsVal) : M unit :=
  if instanceof_Errod error then
    call Primary this.(func) (error :: args)
  else
    call Fallback this.(logger) (error :: args).

(** The inner [catch (recursiveError)] block. *)
Definition validate_inner_catch (recursiveError : JsVal) : M unit :=
  message ← get_prop recursiveError "message";
  console_error [VStr label_secondary; message; VStr reset];;
  cause ← get_prop recursiveError "cause";
  if truthy cause then
    cause ← get_prop recursiveError "cause";
    console_error [VStr label_cause; cause; VStr reset]
  else mret tt.

(** The outer [catch (internalError)] block; its [return] ends the function
    normally. *)
Definition validate_catch (this : Errodator) (args : list JsVal)
    (internalError : JsVal) : M unit :=
  flag ← read_flag;
  if (flag : bool) then
    message ← get_prop internalError "message";
    console_error [VStr label_recursive; message; VStr reset]
  else
    write_flag true;;
    try_catch
      (call Internal this.(onInternalError) (internalError :: args))
      validate_inner_catch.

(** [async validate(error, ...args)]: the completion is that of the promise
    it returns. *)
Definition validate (this : Errodator) (error : JsVal) (args : list JsVal) : M unit :=
  (* let isHandlingInternalError = false; *)
  write_flag false;;
  try_catch (validate_try this error args) (validate_catch this args).

(** ** What a function value does, read off its body *)

(** The completion, the user's world and the console lines of a function
    applied to arguments in a world. *)
Definition fun_result (f : FunId) (args : list JsVal) (w : W) : Result unit :=
  match f with
  | BasicInternalError =>
      let error := nth 0 args VUndefined in
      if nullish error then Throw (cannot_read error "message") else Ok tt
  | UserFun n => await (fst (user_fun n args w))
  end.

Definition fun_host (f : FunId) (args : list JsVal) (w : W) : W :=
  match f with
  | BasicInternalError => w
  | UserFun n => snd (user_fun n args w)
  end.

Definition fun_lines (f : FunId) (args : list JsVal) : list Event :=
  match f with
  | BasicInternalError =>
      let error := nth 0 args VUndefined in
      if nullish error then [] else basicInternalError_lines error
  | UserFun _ => []
  end.

(** The same for a call at a site of [validate], where the callee may be any
    value. *)
Definition call_result (site : Site) (callee : JsVal) (args : list JsVal) (w : W)
    : Result unit :=
  match callee with
  | VFun f => fun_result f args w
  | _ => Throw (TypeError_new (site_field site +:+ " is not a function"))
  end.

Definition call_host (callee : JsVal) (args : list JsVal) (w : W) : W :=
  match callee with
  | VFun f => fun_host f args w
  | _ => w
  end.

Definition call_events (site : Site) (callee : JsVal) (args : list JsVal) : list Event :=
  match callee with
  | VFun f => Invoke site callee args :: fun_lines f args
  | _ => []
  end.

End Program.

Arguments mkState {W}.
Arguments isHandlingInternalError {W}.
Arguments host {W}.
Arguments trace {W}.
Arguments ret {W A}.
Arguments bind {W A B}.
Arguments throw {W A}.
Arguments try_catch {W A}.
Arguments logged {W}.
Arguments emit {W}.
Arguments console_error {W}.
Arguments console_log {W}.
Arguments read_flag {W}.
Arguments write_flag {W}.
Arguments get_prop {W}.
Arguments basicInternalError {W}.
Arguments apply_fun {W}.
Arguments call {W}.
Arguments Errodator_new {W}.
Arguments validate_try {W}.
Arguments validate_inner_catch {W}.
Arguments validate_catch {W}.
Arguments validate {W}.
Arguments fun_result {W}.
Arguments fun_host {W}.
Arguments call_result {W}.
Arguments call_host {W}.

Arguments Error_new : simpl never.
Arguments TypeError_new : simpl never.
Arguments cannot_read : simpl never.
Arguments lookup_prop : simpl never.
Arguments label_internal : simpl never.
Arguments label_cause : simpl never.
Arguments label_recursive : simpl never.
Arguments label_secondary : simpl never.
Arguments reset : simpl never.

(** ** Reading a run *)

(** [typeof v === 'function'] *)
Definition callable (v : JsVal) : bool := String.eqb (typeof v) "function".

(** The events a piece of code adds to the trace when run in a state. *)
Definition events_of {W A} (m : M W A) (s : State W) : list Event :=
  drop (length (trace s)) (trace (snd (m s))).

Definition is_dispatch (ev : Event) : bool :=
  match ev with
  | Invoke Primary _ _ | Invoke Fallback _ _ => true
  | _ => false
  end.

Definition is_internal (ev : Event) : bool :=
  match ev with
  | Invoke Internal _ _ => true
  | _ => false
  end.

(** The line of the branch of [validate] that tests its local variable. *)
Definition is_recursive_report (ev : Event) : bool :=
  match ev with
  | ConsoleError (VStr label :: _) => String.eqb label label_recursive
  | _ => false
  end.

(** A console line other than that one. *)
Definition is_report (ev : Event) : bool :=
  match ev with
  | Invoke _ _ _ => false
  | _ => negb (is_recursive_report ev)
  end.


(** The handler [validate] picks for an error, and the site it calls it at. *)
Definition chosen_site (error : JsVal) : Site :=
  if instanceof_Errod error then Primary else Fallback.

Definition chosen_handler (this : Errodator) (error : JsVal) : JsVal :=
  if instanceof_Errod error then this.(func) else this.(logger).

(** ** Sample programs *)



(** What [JSON.parse('{"__proto__": null, "code": 400}')] gives: an object
    with an own enumerable property named [__proto__]. *)
Definition proto_source : JsVal :=
  VObj ObjectClass {[ "__proto__" := (VNull, true); "code" := (VNum 400, true) ]}.

(** A first source that takes the prototype away and a second whose
    [__proto__] then finds no setter. *)
Definition proto_twice_sources : list JsVal :=
  [VObj ObjectClass {[ "__proto__" := (VNull, true) ]};
   VObj ObjectClass {[ "__proto__" := (VNum 5, true) ]}].

(** A source whose [__proto__] is itself an [Errod] with a field. *)
Definition proto_errod_source : JsVal :=
  VObj ObjectClass
    {[ "__proto__" :=
         (VObj ErrodClass {[ "message" := (VStr "base", false);
                             "name" := (VStr "Errod", true);
                             "code" := (VNum 400, true) ]}, true) ]}.

(** The handlers of the test file, over a world that counts the calls of the
    internal handler.  [0] is the [func] that throws, [1] a handler that
    returns, [2] the [onInternalError] that counts and throws an [Error],
    [3] one that counts and throws [null], [4] one that counts and returns;
    every other number is a function that just returns, such as the
    callback the tests pass as context. *)
Definition sample_fun (n : nat) (args : list JsVal) (w : nat) : Settle * nat :=
  match n with
  | 0 => (Throws (Error_new "Error in func"), w)
  | 2 => (Throws (Error_new "Error in onInternalError"), S w)
  | 3 => (Throws VNull, S w)
  | 4 => (Completes, S w)
  | _ => (Completes, w)
  end.

Definition sample_state : State nat := mkState false 0 [].

Definition sample_callback : JsVal := VFun (UserFun 9).


(** Handlers one of which never settles: [0] throws, [7] returns a promise
    that stays pending, the others return. *)
Definition slow_fun (n : nat) (args : list JsVal) (w : nat) : Settle * nat :=
  match n with
  | 0 => (Throws (Error_new "Error in func"), w)
  | 7 => (Hangs, w)
  | _ => (Completes, w)
  end.

(** Sources without a field to copy. *)
Definition empty_sources : list JsVal :=
  [VNull; VUndefined; VNum 5; VBool true; VFun (UserFun 1); Error_new "inner"].

(** ** Further readings of a run *)


(** ** The test file's reporter *)

(** <<
function logTestResult(testName, passed, message = '') {
    console.log(`[${passed ? 'PASS' : 'FAIL'}] ${testName}${message ? `: ${message}` : ''}`);
}
>>
    for a string [testName] and a string [message], as the tests call it; a
    message left out is the empty string. *)
Definition logTestResult_line (testName : string) (passed : bool) (message : string)
    : string :=
  "[" +:+ (if passed then "PASS" else "FAIL") +:+ "] " +:+ testName +:+
  (if truthy (VStr message) then ": " +:+ message else "").

Definition logTestResult {W} (testName : string) (passed : bool) (message : string)
    : M W unit :=
  console_log [VStr (logTestResult_line testName passed message)].

(** * Properties of [Errod] *)

Section ErrodFacts.

Implicit Types (target : Obj) (props : Props) (src : JsVal) (sources : list JsVal).
Implicit Types (k : string).

Lemma assign_fields_lookup props src k :
  k ≠ "__proto__" →
  assign_fields props src !! k =
    match supplies src k with
    | Some x =>
        Some (x, match props !! k with Some p => slot_enumerable p | None => true end)
    | None => props !! k
    end.
Proof.
  intros Hk. unfold assign_fields, supplies.
  rewrite lookup_merge, lookup_delete_ne by done.
  destruct (props !! k) as [p|], (own_props src !! k) as [[x []]|]; reflexivity.
Qed.

Lemma assign_fields_proto props src :
  assign_fields props src !! "__proto__" = props !! "__proto__".
Proof.
  unfold assign_fields. rewrite lookup_merge, lookup_delete_eq.
  by destruct (props !! "__proto__").
Qed.













(** The README's example: the fields of the metadata source are readable on
    the instance. *)
Example Errod_readme :
  let error := Errod_new "Access denied"
                 [VObj ObjectClass {[ "code" := (VNum 403, true);
                                      "userId" := (VNum 123, true) ]}] in
  lookup_prop error "message" = VStr "Access denied"
  ∧ lookup_prop error "name" = VStr "Errod"
  ∧ lookup_prop error "code" = VNum 403
  ∧ lookup_prop error "userId" = VNum 123.
Proof. vm_compute. done. Qed.

(** A string given as a metadata source is copied character by character,
    and [null] is skipped. *)
Example Errod_string_source :
  let error := Errod_new "m" [VStr "ab"; VNull] in
  lookup_prop error "0" = VStr "a"
  ∧ lookup_prop error "1" = VStr "b"
  ∧ own_value error "length" = None
  ∧ lookup_prop error "message" = VStr "m".
Proof. vm_compute. done. Qed.

(** An [Error] given as a metadata source brings nothing: its [message] is
    not enumerable. *)
Example Errod_error_source :
  lookup_prop (Errod_new "outer" [Error_new "inner"]) "message" = VStr "outer".
Proof. vm_compute. done. Qed.



End ErrodFacts.





(** * Properties of [Errodator] *)

Section DispatchFacts.

Context {W : Type} (user_fun : nat → list JsVal → W → Settle * W).

Implicit Types (s : State W) (v r error : JsVal) (args : list JsVal).
Implicit Types (this : Errodator) (f nf : FunId) (evs : list Event).

(** ** The constructor *)

Lemma callable_fun v : callable v = true ↔ ∃ f, v = VFun f.
Proof.
  split.
  - destruct v; try discriminate. eauto.
  - intros [f ->]. reflexivity.
Qed.

(** A dispatcher that the constructor returned holds three functions, and
    the constructor left the state as it was. *)
Lemma Errodator_new_Ok (af al ai : JsVal) s this s' :
  Errodator_new af al ai s = (Ok this, s') →
  s' = s
  ∧ this = mkErrodator af al (default_param ai (VFun BasicInternalError))
  ∧ (∃ pf, this.(func) = VFun pf)
  ∧ (∃ lf, this.(logger) = VFun lf)
  ∧ (∃ nf, this.(onInternalError) = VFun nf).
Proof.
  unfold Errodator_new. simpl.
  destruct (callable af) eqn:Hf; unfold callable in Hf; rewrite Hf; simpl;
    [|discriminate].
  destruct (callable al) eqn:Hl; unfold callable in Hl; rewrite Hl; simpl;
    [|discriminate].
  destruct (callable (default_param ai (VFun BasicInternalError))) eqn:Hi;
    unfold callable in Hi; rewrite Hi; simpl; [|discriminate].
  intros [= <- <-]. simpl. split_and!; try reflexivity.
  - apply callable_fun, Hf.
  - apply callable_fun, Hl.
  - apply callable_fun, Hi.
Qed.

(** ** Runs of the pieces *)

Lemma logged_nil s : logged s [] = s.
Proof. destruct s. unfold logged. simpl. by rewrite app_nil_r. Qed.

Lemma logged_logged s evs evs' : logged (logged s evs) evs' = logged s (evs ++ evs').
Proof. unfold logged. simpl. by rewrite app_assoc. Qed.

Lemma get_prop_run v (k : string) s :
  get_prop v k s =
    if nullish v then (Throw (cannot_read v k), s) else (Ok (lookup_prop v k), s).
Proof. unfold get_prop. destruct (nullish v); reflexivity. Qed.

(** Both diagnostic writers have the same shape: a line with the message,
    then a line with the cause when it is truthy. *)
Lemma report_run (label : string) v s :
  (message ← get_prop v "message";
   console_error [VStr label; message; VStr reset];;
   cause ← get_prop v "cause";
   if truthy cause then
     cause ← get_prop v "cause";
     console_error [VStr label_cause; cause; VStr reset]
   else mret tt) s =
    if nullish v then (Throw (cannot_read v "message"), s)
    else (Ok tt,
          logged s (ConsoleError [VStr label; lookup_prop v "message"; VStr reset]
                    :: (if truthy (lookup_prop v "cause")
                        then [ConsoleError [VStr label_cause; lookup_prop v "cause";
                                            VStr reset]]
                        else []))).
Proof.
  unfold mbind, M_bind, bind, mret, M_ret, ret, console_error, emit.
  rewrite get_prop_run. destruct (nullish v) eqn:Hv; [reflexivity|].
  rewrite get_prop_run, Hv.
  destruct (truthy (lookup_prop v "cause")); [|reflexivity].
  rewrite get_prop_run, Hv. by rewrite logged_logged.
Qed.

Lemma basicInternalError_run error s :
  basicInternalError error s =
    if nullish error then (Throw (cannot_read error "message"), s)
    else (Ok tt, logged s (basicInternalError_lines error)).
Proof. apply report_run. Qed.

Lemma validate_inner_catch_run r s :
  validate_inner_catch r s =
    if nullish r then (Throw (cannot_read r "message"), s)
    else (Ok tt, logged s (inner_catch_lines r)).
Proof. apply report_run. Qed.

(** A function applied: its completion and its effect on the user's world
    depend on that world only; the local variable of [validate] is out of
    its reach, and the trace grows by its console lines. *)
Lemma apply_fun_run f args s :
  apply_fun user_fun f args s =
    (fun_result user_fun f args (host s),
     mkState (isHandlingInternalError s) (fun_host user_fun f args (host s))
       (trace s ++ fun_lines f args)).
Proof.
  destruct f as [|n]; simpl.
  - rewrite basicInternalError_run.
    destruct (nullish (nth 0 args VUndefined)); [|reflexivity].
    rewrite app_nil_r. by destruct s.
  - destruct (user_fun n args (host s)) as [o w]. simpl. by rewrite app_nil_r.
Qed.

Lemma call_run site (callee : JsVal) args s :
  call user_fun site callee args s =
    (call_result user_fun site callee args (host s),
     mkState (isHandlingInternalError s) (call_host user_fun callee args (host s))
       (trace s ++ call_events site callee args)).
Proof.
  destruct callee; simpl; try (rewrite app_nil_r; by destruct s).
  unfold mbind, M_bind, bind, emit. rewrite apply_fun_run. simpl.
  by rewrite <- app_assoc.
Qed.

(** No call writes the local variable of [validate]. *)
Lemma validate_try_flag this error args s :
  isHandlingInternalError (snd (validate_try user_fun this error args s))
    = isHandlingInternalError s.
Proof.
  unfold validate_try. destruct (instanceof_Errod error); by rewrite call_run.
Qed.

Lemma validate_try_run this error args s :
  validate_try user_fun this error args s =
    call user_fun (chosen_site error) (chosen_handler this error) (error :: args) s.
Proof.
  unfold validate_try, chosen_site, chosen_handler.
  by destruct (instanceof_Errod error).
Qed.

(** ** The run of [validate] *)

(** [validate] as a function of what the handlers do: the first call, then
    on its failure the internal one, then on that one's failure the
    diagnostic.  The branch on the local variable is gone: the variable is
    still [false] when the [catch] block reads it. *)
Lemma validate_run this error args s :
  let site := chosen_site error in
  let h := chosen_handler this error in
  let n := this.(onInternalError) in
  let first := call_events site h (error :: args) in
  let w1 := call_host user_fun h (error :: args) (host s) in
  validate user_fun this error args s =
    match call_result user_fun site h (error :: args) (host s) with
    | Throw v =>
        let second := call_events Internal n (v :: args) in
        let w2 := call_host user_fun n (v :: args) w1 in
        match call_result user_fun Internal n (v :: args) w1 with
        | Throw r =>
            if nullish r
            then (Throw (cannot_read r "message"),
                  mkState true w2 (trace s ++ first ++ second))
            else (Ok tt,
                  mkState true w2 (trace s ++ first ++ second ++ inner_catch_lines r))
        | o => (o, mkState true w2 (trace s ++ first ++ second))
        end
    | o => (o, mkState false w1 (trace s ++ first))
    end.
Proof.
  intros site h n first w1. subst site h n first w1.
  unfold validate, mbind, M_bind, bind, write_flag, try_catch.
  rewrite validate_try_run, call_run. simpl.
  destruct (call_result user_fun (chosen_site error) (chosen_handler this error)
              (error :: args) (host s)) as [[]|v|]; try reflexivity.
  unfold validate_catch, mbind, M_bind, bind, read_flag, write_flag, try_catch. simpl.
  rewrite call_run. simpl.
  destruct (call_result user_fun Internal (onInternalError this) (v :: args) _)
    as [[]|r|]; rewrite <- ?app_assoc; try reflexivity.
  rewrite validate_inner_catch_run.
  destruct (nullish r); [reflexivity|].
  unfold logged. simpl. by rewrite <- !app_assoc.
Qed.

Lemma validate_result this error args s :
  fst (validate user_fun this error args s) =
    match call_result user_fun (chosen_site error) (chosen_handler this error)
            (error :: args) (host s) with
    | Throw v =>
        match call_result user_fun Internal this.(onInternalError) (v :: args)
                (call_host user_fun (chosen_handler this error) (error :: args) (host s)) with
        | Throw r => if nullish r then Throw (cannot_read r "message") else Ok tt
        | o => o
        end
    | o => o
    end.
Proof.
  rewrite validate_run. simpl.
  repeat (case_match; simpl; try reflexivity).
Qed.

Lemma validate_events this error args s :
  events_of (validate user_fun this error args) s =
    call_events (chosen_site error) (chosen_handler this error) (error :: args) ++
    match call_result user_fun (chosen_site error) (chosen_handler this error)
            (error :: args) (host s) with
    | Throw v =>
        call_events Internal this.(onInternalError) (v :: args) ++
        match call_result user_fun Internal this.(onInternalError) (v :: args)
                (call_host user_fun (chosen_handler this error) (error :: args) (host s)) with
        | Throw r => if nullish r then [] else inner_catch_lines r
        | _ => []
        end
    | _ => []
    end.
Proof.
  unfold events_of. rewrite validate_run. simpl.
  repeat (case_match; simpl);
    rewrite ?app_nil_r; by rewrite drop_app_length.
Qed.

(** ** The diagnostic lines *)

Lemma basicInternalError_lines_report error :
  forallb is_report (basicInternalError_lines error) = true.
Proof.
  unfold basicInternalError_lines. destruct (truthy _); reflexivity.
Qed.

Lemma inner_catch_lines_report r : forallb is_report (inner_catch_lines r) = true.
Proof.
  unfold inner_catch_lines. destruct (truthy _); reflexivity.
Qed.

Lemma fun_lines_report f args : forallb is_report (fun_lines f args) = true.
Proof.
  destruct f; simpl; [|reflexivity].
  destruct (nullish _); [reflexivity|apply basicInternalError_lines_report].
Qed.

(** A selection that no diagnostic line passes selects nothing among
    diagnostic lines. *)
Lemma filter_reports (p : Event → bool) evs :
  (∀ ev, is_report ev = true → p ev = false) →
  forallb is_report evs = true →
  List.filter p evs = [].
Proof.
  intros Hp. induction evs as [|ev evs IH]; simpl; [done|].
  intros [Hev Hevs]%andb_prop. rewrite (Hp ev Hev). auto.
Qed.


Lemma report_not_internal ev : is_report ev = true → is_internal ev = false.
Proof. by destruct ev. Qed.

Lemma report_not_recursive ev : is_report ev = true → is_recursive_report ev = false.
Proof. destruct ev; simpl; try done. by intros ->%negb_true_iff. Qed.

Lemma fun_lines_filter (p : Event → bool) f args :
  (∀ ev, is_report ev = true → p ev = false) → List.filter p (fun_lines f args) = [].
Proof. intros Hp. apply filter_reports, fun_lines_report. exact Hp. Qed.

Lemma inner_catch_lines_filter (p : Event → bool) r :
  (∀ ev, is_report ev = true → p ev = false) → List.filter p (inner_catch_lines r) = [].
Proof. intros Hp. apply filter_reports, inner_catch_lines_report. exact Hp. Qed.


(** The calls of [onInternalError] in a run: one when the first call
    failed, with the value it failed with, and none otherwise. *)
Lemma validate_internal_events this error args s nf :
  this.(onInternalError) = VFun nf →
  List.filter is_internal (events_of (validate user_fun this error args) s) =
    match call_result user_fun (chosen_site error) (chosen_handler this error)
            (error :: args) (host s) with
    | Throw v => [Invoke Internal (VFun nf) (v :: args)]
    | _ => []
    end.
Proof.
  intros Hn. rewrite validate_events, Hn, List.filter_app.
  assert (List.filter is_internal
            (call_events (chosen_site error) (chosen_handler this error) (error :: args))
          = []) as ->.
  { unfold chosen_site.
    destruct (chosen_handler this error), (instanceof_Errod error);
      cbn [call_events List.filter is_internal]; try reflexivity;
      apply fun_lines_filter, report_not_internal. }
  cbn [app].
  destruct (call_result user_fun (chosen_site error) _ _ _) as [[]|v|]; try reflexivity.
  cbn [call_events call_result]. rewrite List.filter_app. cbn [List.filter is_internal].
  rewrite (fun_lines_filter _ _ _ report_not_internal). cbn [app]. f_equal.
  destruct (fun_result user_fun nf (v :: args) _) as [[]|r|]; try reflexivity.
  destruct (nullish r); [reflexivity|].
  apply inner_catch_lines_filter, report_not_internal.
Qed.

(** ** Dispatch, redirection and containment *)


(** A user function fails, as far as [await] can tell, when it throws or
    when the promise it returns rejects. *)
Lemma apply_fun_user_throw (n : nat) args s v :
  fst (apply_fun user_fun (UserFun n) args s) = Throw v ↔
  fst (user_fun n args (host s)) = Throws v ∨ fst (user_fun n args (host s)) = Rejects v.
Proof.
  rewrite apply_fun_run. simpl.
  destruct (user_fun n args (host s)) as [[| | |] w]; simpl; split;
    try (intros [=]); try (intros [[=]|[=]]); subst; auto.
Qed.


(** However the handlers behave, [onInternalError] is called at most once in
    a call of [validate], and only after the first call failed. *)
Lemma validate_internal_at_most_once (af al ai : JsVal) (s0 s0' : State W)
    this error args s :
  Errodator_new af al ai s0 = (Ok this, s0') →
  (length (List.filter is_internal (events_of (validate user_fun this error args) s)) ≤ 1)%nat.
Proof.
  intros Hnew.
  apply Errodator_new_Ok in Hnew as (_ & _ & _ & _ & [nf Hnf]).
  rewrite (validate_internal_events this error args s nf Hnf).
  destruct (call_result _ _ _ _ _) as [[]|v|]; simpl; lia.
Qed.

(** The promise of [validate] rejects in one case only: the internal handler
    failed with [null] or [undefined], and reading the [message] of that
    value in the inner [catch] block threw. *)
Lemma validate_throws_only_on_nullish this error args s (x : JsVal) :
  fst (validate user_fun this error args s) = Throw x →
  ∃ r, nullish r = true ∧ x = cannot_read r "message".
Proof.
  rewrite validate_result.
  destruct (call_result _ _ _ _ _) as [[]|v|]; try discriminate.
  destruct (call_result _ _ _ _ _) as [[]|r|]; try discriminate.
  destruct (nullish r) eqn:Hr; [|discriminate].
  intros [= <-]. eauto.
Qed.

(** When the internal handler fails with a value that has fields, the inner
    [catch] block writes its diagnostic and [validate] returns normally. *)
Lemma validate_reports_secondary_failure this error args s f nf v r :
  chosen_handler this error = VFun f →
  this.(onInternalError) = VFun nf →
  fun_result user_fun f (error :: args) (host s) = Throw v →
  fun_result user_fun nf (v :: args) (fun_host user_fun f (error :: args) (host s))
    = Throw r →
  nullish r = false →
  fst (validate user_fun this error args s) = Ok tt
  ∧ events_of (validate user_fun this error args) s =
      Invoke (chosen_site error) (VFun f) (error :: args) :: fun_lines f (error :: args)
      ++ Invoke Internal (VFun nf) (v :: args) :: fun_lines nf (v :: args)
      ++ inner_catch_lines r.
Proof.
  intros Hf Hn Hv Hr Hnull.
  rewrite validate_result, validate_events, Hf, Hn. cbn [call_result call_host call_events].
  rewrite Hv, Hr, Hnull. split; reflexivity.
Qed.

(** The branch on the local variable is in the model: entered with the
    variable set, the [catch] block writes the line of that branch and calls
    nothing. *)
Lemma validate_catch_when_flag_set this args v (w : W) (t : list Event) :
  nullish v = false →
  validate_catch user_fun this args v (mkState true w t) =
    (Ok tt, mkState true w
              (t ++ [ConsoleError [VStr label_recursive; lookup_prop v "message";
                                   VStr reset]])).
Proof.
  intros Hv. unfold validate_catch, mbind, M_bind, bind, read_flag. simpl.
  rewrite get_prop_run, Hv. reflexivity.
Qed.

(** C7. The local variable [isHandlingInternalError] is [false] whenever the
    [catch] block is entered, so the branch that tests it and writes
    'Recursive internal error detected' is never taken: no run of [validate]
    writes that line, whatever the dispatcher holds and the handlers do. *)
Theorem validate_flag_branch_unreachable this error args s :
  (∀ v s',
     validate_try user_fun this error args (snd (write_flag false s)) = (Throw v, s') →
     isHandlingInternalError s' = false)
  ∧ List.filter is_recursive_report (events_of (validate user_fun this error args) s) = [].
Proof.
  split.
  - intros v s' Htry.
    pose proof (validate_try_flag this error args (snd (write_flag false s))) as Hflag.
    rewrite Htry in Hflag. exact Hflag.
  - assert (∀ site callee args',
              List.filter is_recursive_report (call_events site callee args') = []) as Hcall.
    { intros site callee args'. destruct callee; try reflexivity.
      cbn [call_events List.filter is_recursive_report].
      apply fun_lines_filter, report_not_recursive. }
    rewrite validate_events, List.filter_app, Hcall. cbn [app].
    destruct (call_result _ _ _ _ _) as [[]|v|]; try reflexivity.
    rewrite List.filter_app, Hcall. cbn [app].
    destruct (call_result _ _ _ _ _) as [[]|r|]; try reflexivity.
    destruct (nullish r); [reflexivity|].
    apply inner_catch_lines_filter, report_not_recursive.
Qed.

(** C8. Given an error with fields, [basicInternalError] writes one line
    with the error's message, then a second line with the cause exactly when
    the cause is truthy; it changes nothing else and returns normally. *)
Theorem basicInternalError_writes_diagnostics error s :
  nullish error = false →
  let line_message :=
    ConsoleError [VStr label_internal; lookup_prop error "message"; VStr reset] in
  let line_cause :=
    ConsoleError [VStr label_cause; lookup_prop error "cause"; VStr reset] in
  basicInternalError error s =
    (Ok tt,
     mkState (isHandlingInternalError s) (host s)
       (trace s ++ if truthy (lookup_prop error "cause")
                   then [line_message; line_cause] else [line_message])).
Proof.
  intros Hnull line_message line_cause.
  rewrite basicInternalError_run, Hnull.
  unfold logged, basicInternalError_lines.
  by destruct (truthy _).
Qed.

(** C5. The constructor throws an [Error] when [func] is not a function,
    when [logger] is not, or when an [onInternalError] is given that is not;
    with [onInternalError] left out it returns a dispatcher whose internal
    handler is [basicInternalError], provided [func] and [logger] are
    functions. *)
Theorem Errodator_new_checks_handlers (af al ai : JsVal) s :
  (callable af = false ∨ callable al = false ∨ (ai ≠ VUndefined ∧ callable ai = false) →
   ∃ (message : string) s',
     Errodator_new af al ai s = (Throw (Error_new message), s') ∧ host s' = host s)
  ∧ (callable af = true → callable al = true →
     Errodator_new af al VUndefined s
       = (Ok (mkErrodator af al (VFun BasicInternalError)), s))
  ∧ (callable af = true → callable al = true → callable ai = true →
     Errodator_new af al ai s = (Ok (mkErrodator af al ai), s)).
Proof.
  unfold Errodator_new, callable. simpl. split_and!.
  - intros Hbad.
    destruct (String.eqb (typeof af) "function") eqn:Hf; simpl; [|eauto].
    destruct (String.eqb (typeof al) "function") eqn:Hl; simpl; [|eauto].
    destruct Hbad as [Hbad|[Hbad|[Hgiven Hbad]]]; try discriminate.
    assert (default_param ai (VFun BasicInternalError) = ai) as ->
      by (by destruct ai).
    rewrite Hbad. simpl. eauto.
  - intros -> ->. reflexivity.
  - intros -> -> Hi.
    assert (default_param ai (VFun BasicInternalError) = ai) as ->
      by (by destruct ai).
    rewrite Hi. reflexivity.
Qed.


End DispatchFacts.

(** * The scenarios of the test file *)

(** Test 1 and scenario A: an [Errod] with [code] reaches [func] with its
    message and code. *)
Example scenario_errod_handling :
  let this := mkErrodator (VFun (UserFun 1)) (VFun (UserFun 5)) (VFun BasicInternalError) in
  let error := Errod_new "Test Errod" [VObj ObjectClass {[ "code" := (VNum 400, true) ]}] in
  validate sample_fun this error [sample_callback] sample_state
    = (Ok tt, mkState false 0 [Invoke Primary (VFun (UserFun 1)) [error; sample_callback]])
  ∧ lookup_prop error "message" = VStr "Test Errod"
  ∧ lookup_prop error "code" = VNum 400.
Proof. vm_compute. done. Qed.

(** Test 4 and scenario D with an [Error]: the internal handler runs once,
    its failure is written to the console, and [validate] returns. *)
Example scenario_recursion_protection :
  let this := mkErrodator (VFun (UserFun 0)) (VFun (UserFun 1)) (VFun (UserFun 2)) in
  let error := Errod_new "Test Errod" [] in
  validate sample_fun this error [sample_callback] sample_state
    = (Ok tt,
       mkState true 1
         [Invoke Primary (VFun (UserFun 0)) [error; sample_callback];
          Invoke Internal (VFun (UserFun 2)) [Error_new "Error in func"; sample_callback];
          ConsoleError [VStr label_secondary; VStr "Error in onInternalError"; VStr reset]]).
Proof. vm_compute. done. Qed.

(** With the default internal handler, a [func] that throws [null] is still
    contained: [basicInternalError] fails on [null.message], and the inner
    [catch] block reports that TypeError. *)
Example scenario_null_to_default_handler :
  let this := mkErrodator (VFun (UserFun 3)) (VFun (UserFun 1)) (VFun BasicInternalError) in
  fst (validate sample_fun this (Errod_new "Test Errod" []) [] sample_state) = Ok tt.
Proof. vm_compute. done. Qed.

(** C3, at an input where it fails.  [func] throws, and [onInternalError]
    throws [null]: the inner [catch] block reads [recursiveError.message],
    which throws a TypeError inside [validate], and the promise [validate]
    returned rejects with it. *)
Theorem validate_rejects_when_internal_throws_null :
  let error := Errod_new "Test Errod" [] in
  ∃ this,
    Errodator_new (VFun (UserFun 0)) (VFun (UserFun 1)) (VFun (UserFun 3)) sample_state
      = (Ok this, sample_state)
    ∧ fst (validate sample_fun this error [sample_callback] sample_state)
      = Throw (TypeError_new "Cannot read properties of null (reading 'message')").
Proof.
  eexists. split; [reflexivity|]. vm_compute. reflexivity.
Qed.

(** C4, at the same input.  The internal handler is called once and not
    again, but its failure is not written to the console and [validate] does
    not return normally. *)
Theorem validate_secondary_failure_unreported_on_null :
  let this := mkErrodator (VFun (UserFun 0)) (VFun (UserFun 1)) (VFun (UserFun 3)) in
  let error := Errod_new "Test Errod" [] in
  let run := validate sample_fun this error [sample_callback] in
  events_of run sample_state
    = [Invoke Primary (VFun (UserFun 0)) [error; sample_callback];
       Invoke Internal (VFun (UserFun 3)) [Error_new "Error in func"; sample_callback]]
  ∧ host (snd (run sample_state)) = 1
  ∧ fst (run sample_state) ≠ Ok tt.
Proof.
  split_and!; [vm_compute; reflexivity|vm_compute; reflexivity|].
  vm_compute. discriminate.
Qed.

(** ** Witnesses *)



Lemma validate_flag_branch_unreachable_witness :
  let this := mkErrodator (VFun (UserFun 0)) (VFun (UserFun 1)) (VFun (UserFun 2)) in
  let error := Errod_new "Test Errod" [] in
  let s' := mkState false 0 [Invoke Primary (VFun (UserFun 0)) [error; sample_callback]] in
  validate_try sample_fun this error [sample_callback]
    (snd (write_flag false (mkState true 0 [])))
    = (Throw (Error_new "Error in func"), s')
  ∧ isHandlingInternalError s' = false.
Proof.
  intros this error s'.
  assert (validate_try sample_fun this error [sample_callback]
            (snd (write_flag false (mkState true 0 [])))
          = (Throw (Error_new "Error in func"), s')) as Htry by reflexivity.
  split; [exact Htry|].
  exact (proj1 (validate_flag_branch_unreachable sample_fun this error [sample_callback]
                  (mkState true 0 []))
           (Error_new "Error in func") s' Htry).
Defined.

Lemma basicInternalError_writes_diagnostics_witness :
  let error := VObj ErrorClass {[ "message" := (VStr "boom", false);
                                  "cause" := (VStr "disk", false) ]} in
  nullish error = false
  ∧ basicInternalError error sample_state
    = (Ok tt,
       mkState false 0
         [ConsoleError [VStr label_internal; VStr "boom"; VStr reset];
          ConsoleError [VStr label_cause; VStr "disk"; VStr reset]]).
Proof.
  intros error. split; [reflexivity|].
  exact (basicInternalError_writes_diagnostics error sample_state eq_refl).
Defined.

Lemma Errodator_new_checks_handlers_witness :
  (∃ (message : string) s',
     Errodator_new (VFun (UserFun 0)) (VFun (UserFun 1)) VNull sample_state
       = (Throw (Error_new message), s') ∧ host s' = host sample_state)
  ∧ Errodator_new (VFun (UserFun 0)) (VFun (UserFun 1)) VUndefined sample_state
    = (Ok (mkErrodator (VFun (UserFun 0)) (VFun (UserFun 1)) (VFun BasicInternalError)),
       sample_state)
  ∧ Errodator_new (VFun (UserFun 0)) (VFun (UserFun 1)) (VFun (UserFun 2)) sample_state
    = (Ok (mkErrodator (VFun (UserFun 0)) (VFun (UserFun 1)) (VFun (UserFun 2))),
       sample_state).
Proof.
  split_and!.
  - apply (proj1 (Errodator_new_checks_handlers
                    (VFun (UserFun 0)) (VFun (UserFun 1)) VNull sample_state)).
    right. right. split; [discriminate|reflexivity].
  - apply (proj1 (proj2 (Errodator_new_checks_handlers
                           (VFun (UserFun 0)) (VFun (UserFun 1)) VNull sample_state)));
      reflexivity.
  - apply (proj2 (proj2 (Errodator_new_checks_handlers
                           (VFun (UserFun 0)) (VFun (UserFun 1)) (VFun (UserFun 2))
                           sample_state)));
      reflexivity.
Defined.


(** * Further properties of [Errod] *)

Section ErrodMerge.

Implicit Types (target : Obj) (props : Props) (src a b : JsVal).
Implicit Types (sources xs ys : list JsVal) (k : string).



Lemma last_supplied_None sources k :
  (∀ src, src ∈ sources → supplies src k = None) → last_supplied k sources = None.
Proof.
  induction sources as [|a rest IH]; intros Hnone; simpl; [reflexivity|].
  rewrite IH.
  - apply Hnone. by left.
  - intros src Hin. apply Hnone. by right.
Qed.





(** A source without a field to copy changes nothing. *)
Lemma assign_one_nothing target src :
  (∀ k, supplies src k = None) → assign_one target src = target.
Proof.
  intros Hnone. unfold assign_one. rewrite Hnone.
  assert (assign_fields (snd target) src = snd target) as ->; [|by destruct target].
  apply map_eq. intros k. destruct (decide (k = "__proto__")) as [->|Hk].
  - apply assign_fields_proto.
  - by rewrite assign_fields_lookup, Hnone.
Qed.





(** X1. Sources without own enumerable properties ([null], [undefined],
    numbers, booleans, functions, a bare [Error]) leave no mark: the instance
    is the one built from the message alone. *)
Theorem Errod_new_ignores_empty_sources (message : string) sources :
  (∀ src k, src ∈ sources → supplies src k = None) →
  Errod_new message sources = Errod_new message [].
Proof.
  intros Hnone.
  assert (∀ target, Object_assign target sources = target) as Hsame.
  { induction sources as [|src rest IH]; intros target; [reflexivity|].
    unfold Object_assign in *. simpl. rewrite assign_one_nothing.
    - apply IH. intros src' k Hin. apply Hnone. by right.
    - intros k. apply Hnone. by left. }
  unfold Errod_new. cbn zeta. by rewrite Hsame.
Qed.





End ErrodMerge.

(** ** The key [__proto__] *)

(** With the prototype taken away by a first source, the [__proto__] of a
    second source meets no setter and becomes an own enumerable property;
    wrapped in another [Errod], that property runs the setter of the outer
    instance and is not handed over. *)
Example Errod_new_own_proto_key :
  let inner := Errod_new "inner" proto_twice_sources in
  instanceof_Errod inner = false
  ∧ own_value inner "__proto__" = Some (VNum 5)
  ∧ supplies inner "__proto__" = Some (VNum 5)
  ∧ own_value (Errod_new "outer" [inner]) "__proto__" = None
  ∧ instanceof_Errod (Errod_new "outer" [inner]) = true.
Proof. vm_compute. done. Qed.

(** A prototype replaced by an [Errod] keeps the instance an [Errod], which
    then inherits the fields of that object; its own message stays. *)
Example Errod_new_proto_errod :
  let e := Errod_new "bad input" [proto_errod_source] in
  instanceof_Errod e = true
  ∧ own_value e "code" = None
  ∧ lookup_prop e "code" = VNum 400
  ∧ lookup_prop e "message" = VStr "bad input".
Proof. vm_compute. done. Qed.

(** * Further properties of [Errodator] *)

Section DispatchMore.

Context {W : Type} (user_fun : nat → list JsVal → W → Settle * W).

Implicit Types (s : State W) (v r x error : JsVal) (args : list JsVal).
Implicit Types (this : Errodator) (f nf : FunId) (evs : list Event).

(** The console lines of a function applied, as the run shows them. *)
Lemma apply_fun_events f args s :
  events_of (apply_fun user_fun f args) s = fun_lines f args.
Proof. unfold events_of. rewrite apply_fun_run. simpl. by rewrite drop_app_length. Qed.

Lemma apply_fun_result f args s :
  fst (apply_fun user_fun f args s) = fun_result user_fun f args (host s).
Proof. by rewrite apply_fun_run. Qed.

Lemma apply_fun_host f args s :
  host (snd (apply_fun user_fun f args s)) = fun_host user_fun f args (host s).
Proof. by rewrite apply_fun_run. Qed.

Lemma TypeError_new_message (message : string) :
  lookup_prop (TypeError_new message) "message" = VStr message.
Proof. reflexivity. Qed.

Lemma TypeError_new_cause (message : string) :
  lookup_prop (TypeError_new message) "cause" = VUndefined.
Proof. reflexivity. Qed.


(** A dispatcher built without an internal handler holds the default one. *)
Lemma Errodator_new_default (af al : JsVal) s this s' :
  Errodator_new af al VUndefined s = (Ok this, s') →
  this.(onInternalError) = VFun BasicInternalError
  ∧ (∀ error, ∃ f, chosen_handler this error = VFun f).
Proof.
  intros Hnew.
  apply Errodator_new_Ok in Hnew as (_ & -> & [pf Hpf] & [lf Hlf] & _).
  simpl in *. split; [reflexivity|].
  intros error. unfold chosen_handler. simpl. destruct (instanceof_Errod error); eauto.
Qed.

(** X6. With the default internal handler [validate] contains every failure:
    its promise never rejects, whatever the error, the context and the
    handlers.  The only failure of [basicInternalError] is a TypeError, which
    the inner [catch] block can report. *)
Theorem validate_default_handler_contains (af al : JsVal) (s0 s0' : State W)
    this error args s x :
  Errodator_new af al VUndefined s0 = (Ok this, s0') →
  fst (validate user_fun this error args s) ≠ Throw x.
Proof.
  intros Hnew. apply Errodator_new_default in Hnew as [Hn _].
  rewrite validate_result, Hn.
  destruct (call_result user_fun (chosen_site error) _ _ _) as [[]|v|]; try discriminate.
  cbn [call_result fun_result nth].
  destruct (nullish v); discriminate.
Qed.

(** X7. With the default internal handler, a handler that fails with [null]
    or [undefined] ends in one diagnostic line: [basicInternalError] is
    called with that value, its TypeError is reported by the inner [catch]
    block, and [validate] returns normally. *)
Theorem validate_nullish_failure_default_handler (af al : JsVal) (s0 s0' : State W)
    this error args s f v :
  Errodator_new af al VUndefined s0 = (Ok this, s0') →
  chosen_handler this error = VFun f →
  fst (apply_fun user_fun f (error :: args) s) = Throw v →
  nullish v = true →
  fst (validate user_fun this error args s) = Ok tt
  ∧ events_of (validate user_fun this error args) s =
      Invoke (chosen_site error) (VFun f) (error :: args)
      :: events_of (apply_fun user_fun f (error :: args)) s
      ++ [Invoke Internal (VFun BasicInternalError) (v :: args);
          ConsoleError
            [VStr label_secondary;
             VStr ("Cannot read properties of " +:+
                   (match v with VNull => "null" | _ => "undefined" end) +:+
                   " (reading 'message')");
             VStr reset]].
Proof.
  intros Hnew Hf Hthrow Hnull. apply Errodator_new_default in Hnew as [Hn _].
  rewrite apply_fun_result in Hthrow.
  rewrite validate_result, validate_events, apply_fun_events, Hn, Hf.
  cbn [call_result call_events call_host fun_lines fun_result nth].
  rewrite Hthrow. cbn [call_result call_events call_host fun_lines fun_result nth].
  rewrite Hnull. split; [reflexivity|]. reflexivity.
Qed.

(** X8. The promise of [validate] rejects exactly when the handler it picked
    failed and the internal handler then failed with [null] or [undefined];
    it rejects with the TypeError of reading [message] from that value. *)
Theorem validate_rejects_iff this error args s f nf x :
  chosen_handler this error = VFun f →
  this.(onInternalError) = VFun nf →
  fst (validate user_fun this error args s) = Throw x ↔
  ∃ v r,
    fst (apply_fun user_fun f (error :: args) s) = Throw v
    ∧ fst (apply_fun user_fun nf (v :: args)
             (snd (apply_fun user_fun f (error :: args) s))) = Throw r
    ∧ nullish r = true
    ∧ x = cannot_read r "message".
Proof.
  intros Hf Hn. rewrite validate_result, Hf, Hn. cbn [call_result call_host].
  split.
  - destruct (fun_result user_fun f (error :: args) (host s)) as [[]|v|] eqn:Hv;
      try discriminate.
    destruct (fun_result user_fun nf (v :: args) _) as [[]|r|] eqn:Hr; try discriminate.
    destruct (nullish r) eqn:Hnull; [|discriminate].
    intros [= <-]. exists v, r.
    by rewrite !apply_fun_result, apply_fun_host, Hv, Hr.
  - intros (v & r & Hv & Hr & Hnull & ->).
    rewrite apply_fun_result in Hv.
    rewrite apply_fun_result, apply_fun_host in Hr.
    by rewrite Hv, Hr, Hnull.
Qed.

(** X9. When the picked handler completes, [validate] completes with it: the
    one call is all it adds to the handler's own effects; the internal
    handler is not called and nothing is written. *)
Theorem validate_handler_completes this error args s f :
  chosen_handler this error = VFun f →
  fst (apply_fun user_fun f (error :: args) s) = Ok tt →
  validate user_fun this error args s =
    (Ok tt,
     mkState false (host (snd (apply_fun user_fun f (error :: args) s)))
       (trace s ++ Invoke (chosen_site error) (VFun f) (error :: args)
                   :: events_of (apply_fun user_fun f (error :: args)) s)).
Proof.
  intros Hf Hok. rewrite apply_fun_result in Hok.
  rewrite validate_run, apply_fun_host, apply_fun_events, Hf.
  cbn [call_result call_events call_host]. by rewrite Hok.
Qed.

(** X10. The promise of [validate] stays pending exactly when the picked
    handler never settles, or fails and the internal handler never
    settles. *)
Theorem validate_pending_iff this error args s f nf :
  chosen_handler this error = VFun f →
  this.(onInternalError) = VFun nf →
  fst (validate user_fun this error args s) = Pending ↔
  fst (apply_fun user_fun f (error :: args) s) = Pending
  ∨ ∃ v,
      fst (apply_fun user_fun f (error :: args) s) = Throw v
      ∧ fst (apply_fun user_fun nf (v :: args)
               (snd (apply_fun user_fun f (error :: args) s))) = Pending.
Proof.
  intros Hf Hn. rewrite validate_result, Hf, Hn. cbn [call_result call_host].
  rewrite apply_fun_result.
  destruct (fun_result user_fun f (error :: args) (host s)) as [[]|v|] eqn:Hv.
  - split; [discriminate|]. intros [?|(v & ? & _)]; discriminate.
  - split.
    + intros Hr. right. exists v. split; [reflexivity|].
      rewrite apply_fun_result, apply_fun_host.
      destruct (fun_result user_fun nf (v :: args) _) as [[]|r|]; try done.
      by destruct (nullish r).
    + intros [?|(v' & [= <-] & Hr)]; [discriminate|].
      rewrite apply_fun_result, apply_fun_host in Hr. by rewrite Hr.
  - split; [auto|reflexivity].
Qed.

(** X11. A call of [validate] starts afresh: its completion, its effect on
    the user's world, the value its local variable ends with and the events
    it adds do not depend on the value an earlier call left in the variable,
    nor on what was done before. *)
Theorem validate_ignores_earlier_state this error args (b b' : bool) (w : W)
    (t t' : list Event) :
  let run := validate user_fun this error args in
  fst (run (mkState b w t)) = fst (run (mkState b' w t'))
  ∧ host (snd (run (mkState b w t))) = host (snd (run (mkState b' w t')))
  ∧ isHandlingInternalError (snd (run (mkState b w t)))
    = isHandlingInternalError (snd (run (mkState b' w t')))
  ∧ events_of run (mkState b w t) = events_of run (mkState b' w t')
  ∧ trace (snd (run (mkState b w t))) = t ++ events_of run (mkState b w t).
Proof.
  intros run. subst run.
  rewrite !validate_result, !validate_events. cbn [host trace].
  split_and!; try reflexivity.
  - rewrite !validate_run. cbn [host trace].
    repeat (case_match; try reflexivity).
  - rewrite !validate_run. cbn [host trace].
    repeat (case_match; try reflexivity).
  - rewrite validate_run. cbn [host trace].
    repeat (case_match; cbn [snd trace]; rewrite ?app_nil_r; try reflexivity).
Qed.

(** X12. The constructor names the first argument that is not a function, in
    the order [func], [logger], [onInternalError]; the first two checks
    write nothing, the third logs the [typeof] of what it was given before
    it throws. *)
Theorem Errodator_new_first_failure (af al ai : JsVal) s :
  (callable af = false →
   Errodator_new af al ai s
     = (Throw (Error_new "Errodator: `func` argument must be a function"), s))
  ∧ (callable af = true → callable al = false →
     Errodator_new af al ai s
       = (Throw (Error_new "Errodator: `logger` argument must be a function"), s))
  ∧ (callable af = true → callable al = true → ai ≠ VUndefined → callable ai = false →
     Errodator_new af al ai s
       = (Throw (Error_new "Errodator: `onInternalError` argument must be a function"),
          logged s [ConsoleLog [VStr (typeof ai)]])).
Proof.
  unfold Errodator_new, callable. simpl. split_and!.
  - intros ->. reflexivity.
  - intros -> ->. reflexivity.
  - intros -> -> Hgiven Hbad.
    assert (default_param ai (VFun BasicInternalError) = ai) as ->
      by (by destruct ai).
    rewrite Hbad. reflexivity.
Qed.

(** X13. When the internal handler fails with a value that has fields, the
    inner [catch] block writes a line with its message, then a line with its
    cause if that is truthy, and [validate] returns normally. *)
Theorem validate_secondary_failure_report this error args s f nf v r :
  chosen_handler this error = VFun f →
  this.(onInternalError) = VFun nf →
  fst (apply_fun user_fun f (error :: args) s) = Throw v →
  fst (apply_fun user_fun nf (v :: args) (snd (apply_fun user_fun f (error :: args) s)))
    = Throw r →
  nullish r = false →
  fst (validate user_fun this error args s) = Ok tt
  ∧ events_of (validate user_fun this error args) s =
      Invoke (chosen_site error) (VFun f) (error :: args)
      :: events_of (apply_fun user_fun f (error :: args)) s
      ++ Invoke Internal (VFun nf) (v :: args)
      :: events_of (apply_fun user_fun nf (v :: args))
           (snd (apply_fun user_fun f (error :: args) s))
      ++ ConsoleError [VStr label_secondary; lookup_prop r "message"; VStr reset]
      :: (if truthy (lookup_prop r "cause")
          then [ConsoleError [VStr label_cause; lookup_prop r "cause"; VStr reset]]
          else []).
Proof.
  intros Hf Hn Hv Hr Hnull.
  rewrite apply_fun_result in Hv. rewrite apply_fun_result, apply_fun_host in Hr.
  rewrite validate_result, validate_events, !apply_fun_events, Hf, Hn.
  cbn [call_result call_host call_events].
  rewrite Hv, Hr, Hnull. split; reflexivity.
Qed.




(** X17. The reporter of the test file writes one console line and always
    returns; the line of a passed test is never the line of a failed one,
    whatever the names and messages, and without a message the line is the
    mark followed by the name. *)
Theorem logTestResult_line_tells_outcome (testName : string) (passed : bool)
    (message : string) s :
  logTestResult testName passed message s
    = (Ok tt, logged s [ConsoleLog [VStr (logTestResult_line testName passed message)]])
  ∧ (∀ testName' message',
       logTestResult_line testName true message
       ≠ logTestResult_line testName' false message')
  ∧ logTestResult_line testName passed ""
    = (if passed then "[PASS] " else "[FAIL] ") +:+ testName.
Proof.
  split_and!.
  - reflexivity.
  - intros testName' message'. unfold logTestResult_line. simpl. intros [=].
  - assert (∀ n : string, n +:+ "" = n) as Hnil.
    { induction n as [|c n IH]; [reflexivity|].
      change (String c (n +:+ "") = String c n). by rewrite IH. }
    unfold logTestResult_line. cbn [truthy String.eqb negb].
    rewrite Hnil. by destruct passed.
Qed.

End DispatchMore.

(** ** Witnesses of the further properties *)

Lemma Errod_new_ignores_empty_sources_witness :
  Errod_new "bad input" empty_sources = Errod_new "bad input" [].
Proof.
  apply Errod_new_ignores_empty_sources.
  intros src k Hin. unfold empty_sources in Hin.
  repeat (apply elem_of_cons in Hin as [->|Hin]); try reflexivity.
  - unfold supplies, Error_new. simpl.
    destruct (_ !! k) as [[x [|]]|] eqn:Hk; try reflexivity.
    apply lookup_singleton_Some in Hk as [_ Hk]. discriminate Hk.
  - by apply elem_of_nil in Hin.
Defined.





Lemma validate_default_handler_contains_witness :
  fst (validate sample_fun
         (mkErrodator (VFun (UserFun 3)) (VFun (UserFun 1)) (VFun BasicInternalError))
         (Errod_new "Test Errod" []) [sample_callback] sample_state)
  ≠ Throw (cannot_read VNull "message").
Proof.
  apply (validate_default_handler_contains sample_fun
           (VFun (UserFun 3)) (VFun (UserFun 1)) sample_state sample_state).
  reflexivity.
Defined.

Lemma validate_nullish_failure_default_handler_witness :
  let this := mkErrodator (VFun (UserFun 3)) (VFun (UserFun 1)) (VFun BasicInternalError) in
  let error := Errod_new "Test Errod" [] in
  fst (validate sample_fun this error [sample_callback] sample_state) = Ok tt
  ∧ events_of (validate sample_fun this error [sample_callback]) sample_state =
      [Invoke Primary (VFun (UserFun 3)) [error; sample_callback];
       Invoke Internal (VFun BasicInternalError) [VNull; sample_callback];
       ConsoleError [VStr label_secondary;
                     VStr "Cannot read properties of null (reading 'message')";
                     VStr reset]].
Proof.
  intros this error.
  apply (validate_nullish_failure_default_handler sample_fun
           (VFun (UserFun 3)) (VFun (UserFun 1)) sample_state sample_state
           this error [sample_callback] sample_state (UserFun 3) VNull);
    reflexivity.
Defined.

Lemma validate_rejects_iff_witness :
  fst (validate sample_fun
         (mkErrodator (VFun (UserFun 0)) (VFun (UserFun 1)) (VFun (UserFun 3)))
         (Errod_new "Test Errod" []) [sample_callback] sample_state)
  = Throw (cannot_read VNull "message").
Proof.
  apply (proj2 (validate_rejects_iff sample_fun
                  (mkErrodator (VFun (UserFun 0)) (VFun (UserFun 1)) (VFun (UserFun 3)))
                  (Errod_new "Test Errod" []) [sample_callback] sample_state
                  (UserFun 0) (UserFun 3) (cannot_read VNull "message")
                  eq_refl eq_refl)).
  exists (Error_new "Error in func"), VNull. split_and!; reflexivity.
Defined.

Lemma validate_handler_completes_witness :
  let this := mkErrodator (VFun (UserFun 4)) (VFun (UserFun 1)) (VFun (UserFun 2)) in
  let error := Errod_new "Test Errod" [] in
  validate sample_fun this error [sample_callback] sample_state
  = (Ok tt, mkState false 1 [Invoke Primary (VFun (UserFun 4)) [error; sample_callback]]).
Proof.
  intros this error.
  apply (validate_handler_completes sample_fun this error [sample_callback] sample_state
           (UserFun 4)); reflexivity.
Defined.

Lemma validate_pending_iff_witness :
  fst (validate slow_fun
         (mkErrodator (VFun (UserFun 0)) (VFun (UserFun 1)) (VFun (UserFun 7)))
         (Errod_new "Test Errod" []) [] sample_state)
  = Pending.
Proof.
  apply (proj2 (validate_pending_iff slow_fun
                  (mkErrodator (VFun (UserFun 0)) (VFun (UserFun 1)) (VFun (UserFun 7)))
                  (Errod_new "Test Errod" []) [] sample_state (UserFun 0) (UserFun 7)
                  eq_refl eq_refl)).
  right. exists (Error_new "Error in func"). split; reflexivity.
Defined.

Lemma Errodator_new_first_failure_witness :
  Errodator_new VNull (VStr "log") (VNum 1) sample_state
    = (Throw (Error_new "Errodator: `func` argument must be a function"), sample_state)
  ∧ Errodator_new (VFun (UserFun 0)) (VStr "log") (VNum 1) sample_state
    = (Throw (Error_new "Errodator: `logger` argument must be a function"), sample_state)
  ∧ Errodator_new (VFun (UserFun 0)) (VFun (UserFun 1)) VNull sample_state
    = (Throw (Error_new "Errodator: `onInternalError` argument must be a function"),
       mkState false 0 [ConsoleLog [VStr "object"]]).
Proof.
  split; [|split].
  - apply (proj1 (Errodator_new_first_failure VNull (VStr "log") (VNum 1) sample_state)).
    reflexivity.
  - apply (proj1 (proj2 (Errodator_new_first_failure
                           (VFun (UserFun 0)) (VStr "log") (VNum 1) sample_state)));
      reflexivity.
  - apply (proj2 (proj2 (Errodator_new_first_failure
                           (VFun (UserFun 0)) (VFun (UserFun 1)) VNull sample_state)));
      try reflexivity.
    discriminate.
Defined.

Lemma validate_secondary_failure_report_witness :
  let this := mkErrodator (VFun (UserFun 0)) (VFun (UserFun 1)) (VFun (UserFun 2)) in
  let error := Errod_new "Test Errod" [] in
  fst (validate sample_fun this error [sample_callback] sample_state) = Ok tt
  ∧ events_of (validate sample_fun this error [sample_callback]) sample_state =
      [Invoke Primary (VFun (UserFun 0)) [error; sample_callback];
       Invoke Internal (VFun (UserFun 2)) [Error_new "Error in func"; sample_callback];
       ConsoleError [VStr label_secondary; VStr "Error in onInternalError"; VStr reset]].
Proof.
  intros this error.
  apply (validate_secondary_failure_report sample_fun this error [sample_callback]
           sample_state (UserFun 0) (UserFun 2)
           (Error_new "Error in func") (Error_new "Error in onInternalError"));
    reflexivity.
Defined.




(** What was built with [new Errod] but lost its prototype to a [__proto__]
    in the metadata is classified by what it is: [validate] calls
    [logger]. *)
Example validate_reparented_goes_to_logger :
  let this := mkErrodator (VFun (UserFun 0)) (VFun (UserFun 1)) (VFun BasicInternalError) in
  let error := Errod_new "bad input" [proto_source] in
  List.filter is_dispatch (events_of (validate sample_fun this error []) sample_state)
  = [Invoke Fallback (VFun (UserFun 1)) [error]].
Proof. vm_compute. reflexivity. Qed.
